(** * mcc180_init.py: the session bootstrap of the Chalmers lab setup

    A shallow embedding of the initialisation script
    [mcc180_init.py].  The script is a straight line of module-level
    statements: two dictionary literals, a data-directory call, a
    sequence of instrument constructions and parameter assignments, and
    one [for] loop.  Python values are a small inductive type, the calls
    into the instrument libraries are operations of a state-and-error
    monad that records every call in a trace, and the script itself is
    one monadic program, section by section as the file is laid out. *)

From Stdlib Require Import ZArith QArith Ascii String List Bool Lia Lqa.
From stdpp Require Import base gmap strings list.
Import ListNotations.
Local Open Scope string_scope.
Local Open Scope list_scope.
#[local] Set Warnings "-register-all".

(** ** Python values *)

(** A reference to a QCoDeS instrument object.  Instruments are
    registered under the name given to their constructor, so a reference
    is that name; [instr_name] is the [.name] attribute. *)
Inductive instr_ref : Type :=
| Ref (n : string).

Definition instr_name (r : instr_ref) : string :=
  match r with Ref n => n end.

(** The values the script builds.  A [dict] literal keeps its keys in
    source order, so it is an association list; a float is the rational
    its literal denotes. *)
Inductive pyval : Type :=
| VNone
| VInt (z : Z)
| VFloat (q : Q)
| VStr (s : string)
| VList (l : list pyval)
| VDict (d : list (string * pyval))
| VInstr (r : instr_ref).

(** [d[k]] on a dictionary literal. *)
Fixpoint dict_get (k : string) (d : list (string * pyval)) : option pyval :=
  match d with
  | [] => None
  | (k', v) :: d' => if String.eqb k k' then Some v else dict_get k d'
  end.

Definition dict_keys (d : list (string * pyval)) : list string := map fst d.

Definition dict_has (k : string) (d : list (string * pyval)) : bool :=
  match dict_get k d with Some _ => true | None => false end.

(** ** Section 2 of the script: the hardware configuration *)

Module Config.

(** Line 118. *)
Definition RO_settings : pyval :=
  VDict [("LO", VInt 5800000000); ("off_I", VInt 0); ("off_Q", VInt 0)].

(** Lines 120-158. *)
Definition hardware_cfg : list (string * pyval) :=
  [ ("backend", VStr "quantify_scheduler.backends.qblox_backend.hardware_compile");
    ("clusterA", VDict
      [ ("ref", VStr "internal");
        ("instrument_type", VStr "Cluster");
        ("clusterA_module2", VDict
          [ ("instrument_type", VStr "QCM_RF");
            ("complex_output_0", VDict
              [ ("lo_freq", VFloat (5312327240 # 1));
                ("dc_mixer_offset_I", VInt 0);
                ("dc_mixer_offset_Q", VInt 0);
                ("portclock_configs", VList
                  [ VDict
                      [ ("port", VStr "q00:mw");
                        ("clock", VStr "q00.01");
                        ("mixer_amp_ratio", VInt 1);
                        ("mixer_phase_error_deg", VInt 0) ] ]) ]) ]);
        ("clusterA_module10", VDict
          [ ("instrument_type", VStr "QRM_RF");
            ("complex_output_0", VDict
              [ ("lo_freq", VFloat (7197494954 # 1));
                ("dc_mixer_offset_I", VInt 0);
                ("dc_mixer_offset_Q", VInt 0);
                ("portclock_configs", VList
                  [ VDict
                      [ ("port", VStr "q00:res");
                        ("clock", VStr "q00.ro");
                        ("mixer_amp_ratio", VInt 1);
                        ("mixer_phase_error_deg", VInt 0) ] ]) ]) ]) ]) ].

(** *** Reading the configuration the way the Qblox backend does

    Every key of the top-level mapping other than the scalar entries
    names a cluster; inside a cluster every nested mapping is a module;
    inside a module every nested mapping is an output (a signal path),
    which carries the [portclock_configs] list. *)

(** The entries of a mapping whose value is itself a mapping. *)
Fixpoint submappings (d : list (string * pyval))
  : list (string * list (string * pyval)) :=
  match d with
  | [] => []
  | (k, VDict d') :: rest => (k, d') :: submappings rest
  | _ :: rest => submappings rest
  end.

Definition clusters (cfg : list (string * pyval)) := submappings cfg.
Definition modules (cluster : list (string * pyval)) := submappings cluster.
Definition outputs (module : list (string * pyval)) := submappings module.

(** The [portclock_configs] entries of one output, and of one module
    (over all its outputs, in order). *)
Definition output_portclocks (output : list (string * pyval)) : list pyval :=
  match dict_get "portclock_configs" output with
  | Some (VList l) => l
  | _ => []
  end.

Definition module_portclocks (module : list (string * pyval)) : list pyval :=
  flat_map (fun o => output_portclocks (snd o)) (outputs module).

Definition cluster_portclocks (cluster : list (string * pyval)) : list pyval :=
  flat_map (fun m => module_portclocks (snd m)) (modules cluster).

(** The (port, clock) binding of one entry, when it has both as strings. *)
Definition port_clock (entry : pyval) : option (string * string) :=
  match entry with
  | VDict d =>
      match dict_get "port" d, dict_get "clock" d with
      | Some (VStr p), Some (VStr c) => Some (p, c)
      | _, _ => None
      end
  | _ => None
  end.

Definition portclock_keys : list string :=
  ["port"; "clock"; "mixer_amp_ratio"; "mixer_phase_error_deg"].

(** An entry has exactly the four keys: it is a mapping whose key list
    is a rearrangement of [portclock_keys] (so none is missing, none is
    extra and none is repeated). *)
Definition entry_has_exactly_the_keys (entry : pyval) : Prop :=
  exists d, entry = VDict d /\ Permutation (dict_keys d) portclock_keys.

(** An output's [portclock_configs] value is a list with at least one
    element, each with exactly the four keys. *)
Definition output_well_formed (output : list (string * pyval)) : Prop :=
  exists l, dict_get "portclock_configs" output = Some (VList l)
            /\ 0 < length l
            /\ Forall entry_has_exactly_the_keys l.

(** A module has at least one output and all its outputs are well formed. *)
Definition module_well_formed (module : list (string * pyval)) : Prop :=
  0 < length (outputs module)
  /\ Forall (fun o => output_well_formed (snd o)) (outputs module).

Definition cluster_well_formed (cluster : list (string * pyval)) : Prop :=
  dict_has "ref" cluster = true
  /\ dict_has "instrument_type" cluster = true
  /\ Forall (fun m => module_well_formed (snd m)) (modules cluster).

End Config.

(** ** The world the script runs in *)

(** What the script reads from outside itself: the user's home
    directory ([Path.home()]), the successive readings of
    [time.time()], the directories present on the filesystem and
    whether a missing one can be created, whether a cluster answers at
    an address, and the system state a connected cluster reports. *)
Record world : Type := {
  home : string;
  clock : nat -> Q;
  existing_dirs : gset string;
  can_mkdir : string -> bool;
  reachable : string -> bool;
  system_state : string -> string
}.

(** ** Instruments, events and the session state *)

Inductive iclass : Type :=
| Cluster_t
| ClusterComponent_t
| GenericInstrumentCoordinatorComponent_t
| InstrumentCoordinator_t
| MeasurementControl_t
| PlotMonitor_pyqt_t
| InstrumentMonitor_t
| BasicTransmonElement_t
| QuantumDevice_t.

(** A registered instrument: its class and the current values of its
    parameters. *)
Record instrument : Type := {
  icls : iclass;
  iparams : gmap string pyval
}.

(** One printed item: literal text, a number formatted with [:.2f], or
    the string form of a value. *)
Inductive piece : Type :=
| Text (s : string)
| Fixed2 (q : Q)
| Shown (s : string).

(** The effects of the executed statements, one event per effect. *)
Inductive event : Type :=
| EClock
| EPrint (items : list piece)
| EBind (x : string)
| ESetDatadir (path : string)
| EGetDatadir
| EConnect (name addr : string)
| EGetSystemState (name : string)
| EReset (name : string)
| ENew (cls : iclass) (name : string)
| ESetParam (name param : string) (v : pyval)
| EAddComponent (coord comp : string)
| EAddElement (dev elem : string)
| ELoadSettings (name : string) (tuid : pyval).

(** The exceptions of the library calls: a filesystem error, a failed
    connection, QCoDeS's [KeyError] for an instrument name that is
    taken, and the [ValueError] and [TypeError] of [add_component] and
    [add_element]. *)
Inductive exn : Type :=
| OSError (path : string)
| NotADirectoryError
| ConnectionError (addr : string)
| KeyError (name : string)
| ValueError (name : string)
| TypeError (name : string).

Record state : Type := {
  globals : gmap string pyval;
  dirs : gset string;
  datadir : option string;
  instruments : gmap string instrument;
  ticks : nat;
  trace : list event
}.

Definition initial_state (w : world) : state :=
  {| globals := ∅; dirs := existing_dirs w; datadir := None;
     instruments := ∅; ticks := 0; trace := [] |}.

Definition set_globals (g : gmap string pyval) (s : state) : state :=
  {| globals := g; dirs := dirs s; datadir := datadir s;
     instruments := instruments s; ticks := ticks s; trace := trace s |}.

Definition set_dirs (d : gset string) (s : state) : state :=
  {| globals := globals s; dirs := d; datadir := datadir s;
     instruments := instruments s; ticks := ticks s; trace := trace s |}.

Definition set_datadir_field (p : option string) (s : state) : state :=
  {| globals := globals s; dirs := dirs s; datadir := p;
     instruments := instruments s; ticks := ticks s; trace := trace s |}.

Definition set_instruments (i : gmap string instrument) (s : state) : state :=
  {| globals := globals s; dirs := dirs s; datadir := datadir s;
     instruments := i; ticks := ticks s; trace := trace s |}.

Definition set_ticks (n : nat) (s : state) : state :=
  {| globals := globals s; dirs := dirs s; datadir := datadir s;
     instruments := instruments s; ticks := n; trace := trace s |}.

Definition set_trace (t : list event) (s : state) : state :=
  {| globals := globals s; dirs := dirs s; datadir := datadir s;
     instruments := instruments s; ticks := ticks s; trace := t |}.

(** ** The monad of the script: state, and an exception that aborts *)

Inductive result (A : Type) : Type :=
| Raise (e : exn)
| Ok (a : A) (s : state).
Arguments Raise {A} e.
Arguments Ok {A} a s.

Definition M (A : Type) : Type := state -> result A.

Definition ret {A : Type} (a : A) : M A := fun s => Ok a s.

Definition bind {A B : Type} (m : M A) (k : A -> M B) : M B :=
  fun s => match m s with
           | Raise e => Raise e
           | Ok a s' => k a s'
           end.

Definition raise {A : Type} (e : exn) : M A := fun _ => Raise e.

(** The script is written with stdpp's monad notations: [x ← m; k] and
    [m;; k]. *)
#[export] Instance M_ret : MRet M := @ret.
#[export] Instance M_bind : MBind M := fun A B k m => bind m k.

(** A [for] loop over a list. *)
Fixpoint for_each {A : Type} (l : list A) (body : A -> M unit) : M unit :=
  match l with
  | [] => ret tt
  | x :: l' => body x ;; for_each l' body
  end.

(** ** The library calls the script makes

    The libraries (quantify-core, qblox-instruments, quantify-scheduler,
    superconducting-qubit-tools, QCoDeS) are not part of this
    repository.  Each call is modelled by the effect the script relies
    on: it is recorded in the trace, and it updates the instrument
    registry, the data directory or the filesystem. *)

Definition newline : string := String (Ascii.ascii_of_nat 10) EmptyString.

(** [os.path.join(a, b)] for two components, as in [posixpath.join]: an
    absolute [b] replaces [a]; otherwise [b] is appended, with a
    separator unless [a] is empty or already ends with one. *)
Definition startswith_sep (b : string) : bool :=
  match b with
  | String c _ => Ascii.eqb c "/"%char
  | EmptyString => false
  end.

Fixpoint endswith_sep (a : string) : bool :=
  match a with
  | EmptyString => false
  | String c EmptyString => Ascii.eqb c "/"%char
  | String _ rest => endswith_sep rest
  end.

Definition os_path_join (a b : string) : string :=
  if startswith_sep b then b
  else if String.eqb a "" || endswith_sep a then a +:+ b
  else a +:+ "/" +:+ b.

Section Library.

Variable w : world.

Definition log (e : event) : M unit :=
  fun s => Ok tt (set_trace (trace s ++ [e]) s).

(** [time.time()]: the next reading of the clock. *)
Definition time_time : M Q :=
  fun s => Ok (clock w (ticks s))
              (set_trace (trace s ++ [EClock]) (set_ticks (S (ticks s)) s)).

Definition print (items : list piece) : M unit := log (EPrint items).

(** A module-level assignment [x = v]. *)
Definition assign (x : string) (v : pyval) : M unit :=
  fun s => Ok tt (set_trace (trace s ++ [EBind x])
                            (set_globals (<[x := v]> (globals s)) s)).

(** Modelled from the spec: [set_datadir] of quantify-core, which the
    script imports and calls; section 4.2 says it ensures that the
    directory exists and registers it as the active data directory,
    and that a filesystem error propagates. *)
Definition set_datadir (path : string) : M unit :=
  fun s =>
    let s1 := set_trace (trace s ++ [ESetDatadir path]) s in
    if bool_decide (path ∈ dirs s) then
      Ok tt (set_datadir_field (Some path) s1)
    else if can_mkdir w path then
      Ok tt (set_datadir_field (Some path) (set_dirs ({[path]} ∪ dirs s) s1))
    else Raise (OSError path).

(** Modelled from the spec: [get_datadir] of quantify-core, which
    returns the active data directory registered by [set_datadir]; it
    raises when none is registered or the directory is gone. *)
Definition get_datadir : M string :=
  fun s =>
    let s1 := set_trace (trace s ++ [EGetDatadir]) s in
    match datadir s with
    | Some p => if bool_decide (p ∈ dirs s) then Ok p s1
                else Raise NotADirectoryError
    | None => Raise NotADirectoryError
    end.

(** Whether an instrument of that name is registered. *)
Definition is_registered (name : string) (m : gmap string instrument) : bool :=
  match m !! name with
  | Some _ => true
  | None => false
  end.

(** [isinstance] on a registered instrument, by its class. *)
Definition isinstance (test : iclass -> bool) (name : string)
    (m : gmap string instrument) : bool :=
  match m !! name with
  | Some x => test (icls x)
  | None => false
  end.

Definition is_DeviceElement (cls : iclass) : bool :=
  match cls with
  | BasicTransmonElement_t => true
  | _ => false
  end.

Definition is_InstrumentCoordinatorComponent (cls : iclass) : bool :=
  match cls with
  | ClusterComponent_t | GenericInstrumentCoordinatorComponent_t => true
  | _ => false
  end.

(** Constructing an instrument registers it under its name, with its
    initial parameter values; QCoDeS raises [KeyError] when another
    instrument has the name. *)
Definition new_instrument (cls : iclass) (name : string)
    (params : gmap string pyval) : M instr_ref :=
  fun s =>
    if is_registered name (instruments s) then Raise (KeyError name)
    else Ok (Ref name)
            (set_trace (trace s ++ [ENew cls name])
               (set_instruments
                  (<[name := {| icls := cls; iparams := params |}]>
                     (instruments s)) s)).

(** [Cluster(name, address)] opens the connection; the driver raises
    when the cluster does not answer.  The instrument is registered
    once the connection is made, under the same rule for its name. *)
Definition Cluster (name addr : string) : M instr_ref :=
  fun s =>
    let s1 := set_trace (trace s ++ [EConnect name addr]) s in
    if reachable w addr then
      if is_registered name (instruments s) then Raise (KeyError name)
      else
        Ok (Ref name)
           (set_instruments
              (<[name := {| icls := Cluster_t;
                            iparams := {["identifier" := VStr addr]} |}]>
                 (instruments s)) s1)
    else Raise (ConnectionError addr).

Definition get_system_state (c : instr_ref) : M string :=
  log (EGetSystemState (instr_name c)) ;;
  mret (system_state w (instr_name c)).

Definition reset (c : instr_ref) : M unit := log (EReset (instr_name c)).

(** Calling a parameter with a value sets it.  References come from the
    constructors, so the instrument is registered. *)
Definition set_parameter (i : instr_ref) (param : string) (v : pyval) : M unit :=
  fun s =>
    Ok tt (set_trace (trace s ++ [ESetParam (instr_name i) param v])
             (set_instruments
                (alter (fun x => {| icls := icls x;
                                    iparams := <[param := v]> (iparams x) |})
                       (instr_name i) (instruments s)) s)).

(** Appending a name to a list-valued parameter. *)
Definition append_name (param name : string) (x : instrument) : instrument :=
  let old := match iparams x !! param with
             | Some (VList l) => l
             | _ => []
             end in
  {| icls := icls x;
     iparams := <[param := VList (old ++ [VStr name])]> (iparams x) |}.

(** [name in l] for a list of names. *)
Definition has_name (name : string) (l : list pyval) : bool :=
  existsb (fun v => match v with
                    | VStr n => String.eqb n name
                    | _ => false
                    end) l.

(** Whether a name is in a list-valued parameter of an instrument. *)
Definition already_added (param name owner : string)
    (m : gmap string instrument) : bool :=
  match m !! owner with
  | Some x => match iparams x !! param with
              | Some (VList l) => has_name name l
              | _ => false
              end
  | None => false
  end.

(** The component wrapping an instrument is named after it and refers
    to it by name.  The components this constructor also creates for
    the modules found in the cluster depend on the hardware and are
    left out. *)
Definition ClusterComponent (c : instr_ref) : M instr_ref :=
  new_instrument ClusterComponent_t ("ic_" +:+ instr_name c)
                 {["instrument_ref" := VStr (instr_name c)]}.

(** The coordinator is constructed with its default generic component
    [ic_generic], which is registered first and is its first
    component. *)
Definition InstrumentCoordinator (name : string) : M instr_ref :=
  generic ← new_instrument GenericInstrumentCoordinatorComponent_t
              "ic_generic" {["instrument_ref" := VStr "generic"]};
  new_instrument InstrumentCoordinator_t name
                 {["components" := VList [VStr (instr_name generic)]]}.

(** [add_component] raises [ValueError] for a component that has been
    added already and [TypeError] for an instrument that is not a
    component. *)
Definition add_component (coord comp : instr_ref) : M unit :=
  fun s =>
    if already_added "components" (instr_name comp) (instr_name coord)
                     (instruments s)
    then Raise (ValueError (instr_name comp))
    else if isinstance is_InstrumentCoordinatorComponent (instr_name comp)
                       (instruments s)
    then
      Ok tt (set_trace
               (trace s ++ [EAddComponent (instr_name coord) (instr_name comp)])
               (set_instruments
                  (alter (append_name "components" (instr_name comp))
                         (instr_name coord) (instruments s)) s))
    else Raise (TypeError (instr_name comp)).

Definition MeasurementControl (name : string) : M instr_ref :=
  new_instrument MeasurementControl_t name ∅.

Definition PlotMonitor_pyqt (name : string) : M instr_ref :=
  new_instrument PlotMonitor_pyqt_t name ∅.

Definition InstrumentMonitor (name : string) : M instr_ref :=
  new_instrument InstrumentMonitor_t name ∅.

Definition BasicTransmonElement (name : string) : M instr_ref :=
  new_instrument BasicTransmonElement_t name ∅.

Definition QuantumDevice (name : string) : M instr_ref :=
  new_instrument QuantumDevice_t name {["elements" := VList []]}.

Definition instr_plotmon (mc : instr_ref) (name : string) : M unit :=
  set_parameter mc "instr_plotmon" (VStr name).

Definition instr_measurement_control (dev : instr_ref) (name : string) : M unit :=
  set_parameter dev "instr_measurement_control" (VStr name).

Definition instr_instrument_coordinator (dev : instr_ref) (name : string) : M unit :=
  set_parameter dev "instr_instrument_coordinator" (VStr name).

Definition hardware_config (dev : instr_ref) (cfg : list (string * pyval)) : M unit :=
  set_parameter dev "hardware_config" (VDict cfg).

(** [add_element] raises [ValueError] for an element whose name has
    been added already and [TypeError] for an instrument that is not a
    device element. *)
Definition add_element (dev elem : instr_ref) : M unit :=
  fun s =>
    if already_added "elements" (instr_name elem) (instr_name dev)
                     (instruments s)
    then Raise (ValueError (instr_name elem))
    else if isinstance is_DeviceElement (instr_name elem) (instruments s)
    then
      Ok tt (set_trace
               (trace s ++ [EAddElement (instr_name dev) (instr_name elem)])
               (set_instruments
                  (alter (append_name "elements" (instr_name elem))
                         (instr_name dev) (instruments s)) s))
    else Raise (TypeError (instr_name elem)).

End Library.

(** ** The script *)

Module Script.
Section Script.

Variable w : world.

(** Section 1, lines 43-110: the clock is read before and after the
    imports and the elapsed time is printed.  The imports bind module
    names only. *)
Definition basic_imports : M Q :=
  t0 ← time_time w;
  assign "t0" (VFloat t0);;
  t1 ← time_time w;
  assign "t1" (VFloat t1);;
  print [Text "Finished basic imports "; Fixed2 (t1 - t0)%Q; Text " s"];;
  mret t0.

(** Section 2, lines 118-158: the two dictionary literals.  The value
    bound to [RO_settings] is a parameter here, so that the script can
    be compared under two values of it. *)
Definition specify_hardware_configuration (ro : pyval)
  : M (list (string * pyval)) :=
  assign "RO_settings" ro;;
  assign "hardware_cfg" (VDict Config.hardware_cfg);;
  mret Config.hardware_cfg.

(** Section 3, lines 166-167. *)
Definition configure_basic_settings : M unit :=
  set_datadir w (os_path_join (home w) "quantify-data");;
  d ← get_datadir;
  print [Text (newline +:+ "Data directory set to: "); Shown d; Text newline].

(** Section 4, physical instruments, lines 177-183. *)
Definition physical_instruments : M instr_ref :=
  print [Text "connecting to qblox-cluster-MM."];;
  cluster0 ← Cluster w "clusterA" "192.0.2.142";
  assign "cluster0" (VInstr cluster0);;
  st ← get_system_state w cluster0;
  print [Text ("CMM system status is " +:+ newline); Shown st];;
  print [Text ("correctly connected to qblox-cluster-MM." +:+ newline)];;
  reset cluster0;;
  mret cluster0.

(** Section 4, hardware abstraction layer, lines 197-200. *)
Definition hardware_abstraction_layer (cluster0 : instr_ref) : M instr_ref :=
  ic_cluster0 ← ClusterComponent cluster0;
  assign "ic_cluster0" (VInstr ic_cluster0);;
  instrument_coordinator ← InstrumentCoordinator "instrument_coordinator";
  assign "instrument_coordinator" (VInstr instrument_coordinator);;
  add_component instrument_coordinator ic_cluster0;;
  mret instrument_coordinator.

(** Section 4, utility instruments, lines 206-220. *)
Definition utility_instruments : M instr_ref :=
  meas_ctrl ← MeasurementControl "meas_ctrl";
  assign "meas_ctrl" (VInstr meas_ctrl);;
  nested_meas_ctrl ← MeasurementControl "nested_meas_ctrl";
  assign "nested_meas_ctrl" (VInstr nested_meas_ctrl);;
  plotmon ← PlotMonitor_pyqt "plotmon";
  assign "plotmon" (VInstr plotmon);;
  instr_plotmon meas_ctrl (instr_name plotmon);;
  plotmon_nested ← PlotMonitor_pyqt "plotmon_nested";
  assign "plotmon_nested" (VInstr plotmon_nested);;
  instr_plotmon nested_meas_ctrl (instr_name plotmon_nested);;
  insmon ← InstrumentMonitor "insmon";
  assign "insmon" (VInstr insmon);;
  mret meas_ctrl.

(** Section 4, configuration management instruments, line 225. *)
Definition config_management_instruments : M instr_ref :=
  q0 ← BasicTransmonElement "q00";
  assign "q0" (VInstr q0);;
  mret q0.

(** The loop of lines 243-251.  Its body is the [add_element] call; the
    [try] block that would call [load_settings_onto_instrument] is
    commented out. *)
Definition register_elements (quantum_device : instr_ref)
    (list_of_qubits : list instr_ref) : M unit :=
  for_each list_of_qubits (fun qubit =>
    assign "qubit" (VInstr qubit);;
    add_element quantum_device qubit).

(** Section 5, lines 231-258. *)
Definition loading_settings (t0 : Q) (hardware_cfg : list (string * pyval))
    (meas_ctrl instrument_coordinator q0 : instr_ref) : M unit :=
  t2 ← time_time w;
  assign "t2" (VFloat t2);;
  print [Text "Finished loading instruments "; Fixed2 (t2 - t0)%Q; Text " s"];;
  quantum_device ← QuantumDevice "quantum_device";
  assign "quantum_device" (VInstr quantum_device);;
  instr_measurement_control quantum_device (instr_name meas_ctrl);;
  instr_instrument_coordinator quantum_device (instr_name instrument_coordinator);;
  hardware_config quantum_device hardware_cfg;;
  assign "LAST_TUID" VNone;;
  let list_of_qubits := [q0] in
  assign "list_of_qubits" (VList (map VInstr list_of_qubits));;
  register_elements quantum_device list_of_qubits;;
  t3 ← time_time w;
  assign "t3" (VFloat t3);;
  print [Text "Finished loading settings "; Fixed2 (t3 - t0)%Q; Text " s"].

(** The whole file, top to bottom. *)
Definition script_with (ro : pyval) : M unit :=
  t0 ← basic_imports;
  hardware_cfg ← specify_hardware_configuration ro;
  configure_basic_settings;;
  cluster0 ← physical_instruments;
  instrument_coordinator ← hardware_abstraction_layer cluster0;
  meas_ctrl ← utility_instruments;
  q0 ← config_management_instruments;
  loading_settings t0 hardware_cfg meas_ctrl instrument_coordinator q0.

Definition script : M unit := script_with Config.RO_settings.

(** Running the file in a fresh interpreter. *)
Definition run_with (ro : pyval) : result unit := script_with ro (initial_state w).
Definition run : result unit := script (initial_state w).

End Script.
End Script.

(** ** Reading a session: stages, orderings and registrations *)

(** The four stages of the bootstrap. *)
Inductive stage : Type :=
| EnvironmentSetup
| ConfigurationAssembly
| SessionConstruction
| StateHydration.

#[export] Instance stage_eq_dec : EqDecision stage.
Proof. solve_decision. Defined.

#[export] Instance iclass_eq_dec : EqDecision iclass.
Proof. solve_decision. Defined.

(** The stage an effect belongs to: the data-directory calls set up the
    environment; binding the two dictionary literals assembles the
    configuration; connecting, constructing and cross-binding
    instruments builds the session; what the loop over the device
    elements does is hydration.  Clock readings, prints and the other
    assignments belong to no stage. *)
Definition stage_of (e : event) : option stage :=
  match e with
  | ESetDatadir _ | EGetDatadir => Some EnvironmentSetup
  | EBind x =>
      if String.eqb x "RO_settings" || String.eqb x "hardware_cfg"
      then Some ConfigurationAssembly else None
  | EConnect _ _ | EGetSystemState _ | EReset _ | ENew _ _
  | ESetParam _ _ _ | EAddComponent _ _ => Some SessionConstruction
  | EAddElement _ _ | ELoadSettings _ _ => Some StateHydration
  | EClock | EPrint _ => None
  end.

(** Consecutive repetitions collapsed. *)
Fixpoint compress (l : list stage) : list stage :=
  match l with
  | [] => []
  | a :: rest =>
      match rest with
      | b :: _ => if bool_decide (a = b) then compress rest else a :: compress rest
      | [] => [a]
      end
  end.

(** The stages a trace goes through, in order. *)
Definition stage_sequence (t : list event) : list stage :=
  compress (omap stage_of t).

(** [in_order ps t]: the trace [t] has events satisfying the tests [ps]
    one after the other, in that order. *)
Fixpoint in_order (ps : list (event -> bool)) (t : list event) : bool :=
  match ps, t with
  | [], _ => true
  | _ :: _, [] => false
  | p :: ps', e :: t' => if p e then in_order ps' t' else in_order ps t'
  end.

Definition is_connect (e : event) : bool :=
  match e with EConnect _ _ => true | _ => false end.

Definition is_reset (e : event) : bool :=
  match e with EReset _ => true | _ => false end.

Definition is_status_query (e : event) : bool :=
  match e with EGetSystemState _ => true | _ => false end.


Definition is_load_settings (e : event) : bool :=
  match e with ELoadSettings _ _ => true | _ => false end.

Definition is_add_element (e : event) : bool :=
  match e with EAddElement _ _ => true | _ => false end.

Definition is_new (cls : iclass) (e : event) : bool :=
  match e with ENew c _ => bool_decide (c = cls) | _ => false end.

(** How many times a settings load was attempted. *)
Definition hydration_attempts (t : list event) : nat :=
  length (List.filter is_load_settings t).

Definition registrations (t : list event) : nat :=
  length (List.filter is_add_element t).

(** The elements registered in a device registry. *)
Definition registered_elements (s : state) (dev : instr_ref) : list pyval :=
  match instruments s !! instr_name dev with
  | Some i => match iparams i !! "elements" with
              | Some (VList l) => l
              | _ => []
              end
  | None => []
  end.

(** The names of the registered instruments of a class. *)
Definition instruments_of_class (cls : iclass) (s : state) : list string :=
  map fst (List.filter (fun p => bool_decide (icls (snd p) = cls))
                       (map_to_list (instruments s))).

(** The orderings the specification states. *)
Definition connect_reset_status (t : list event) : Prop :=
  in_order [is_connect; is_reset; is_status_query] t = true.

Definition connect_status_reset (t : list event) : Prop :=
  in_order [is_connect; is_status_query; is_reset] t = true.

(** Two sessions that differ at most in what [RO_settings] is bound to. *)
Definition same_session (s1 s2 : state) : Prop :=
  delete "RO_settings" (globals s1) = delete "RO_settings" (globals s2)
  /\ dirs s1 = dirs s2
  /\ datadir s1 = datadir s2
  /\ instruments s1 = instruments s2
  /\ ticks s1 = ticks s2
  /\ trace s1 = trace s2.

Definition same_outcome (r1 r2 : result unit) : Prop :=
  match r1, r2 with
  | Ok _ s1, Ok _ s2 => same_session s1 s2
  | Raise e1, Raise e2 => e1 = e2
  | _, _ => False
  end.

(** ** A concrete laboratory machine *)

Definition lab : world :=
  {| home := "/home/lab";
     clock := fun n => (Z.of_nat n # 1)%Q;
     existing_dirs := {["/home/lab"]};
     can_mkdir := fun _ => true;
     reachable := fun _ => true;
     system_state := fun _ => "OKAY" |}.

(** The session the script leaves behind on that machine. *)
Definition lab_session : state :=
  match Script.run lab with
  | Ok _ s => s
  | Raise _ => initial_state lab
  end.

(** That machine right after the data-directory step of a fresh run. *)
Definition lab_after_setup : state :=
  match Script.configure_basic_settings lab (initial_state lab) with
  | Ok _ s => s
  | Raise _ => initial_state lab
  end.

(** A fresh session in which only two device elements and the device
    registry have been constructed. *)
Definition lab_device_ready : state :=
  match (BasicTransmonElement "q00";; BasicTransmonElement "q01";;
         QuantumDevice "quantum_device") (initial_state lab) with
  | Ok _ s => s
  | Raise _ => initial_state lab
  end.

(** A session in which only the cluster connection has been made. *)
Definition lab_connected : state :=
  match Script.physical_instruments lab (initial_state lab) with
  | Ok _ s => s
  | Raise _ => initial_state lab
  end.

(** ** The statements of the specification that the script does not meet *)

(** Stage order as the specification lists it. *)
Definition stages_as_specified (t : list event) : Prop :=
  stage_sequence t
  = [EnvironmentSetup; ConfigurationAssembly; SessionConstruction; StateHydration].

(** The loop registers every element and attempts one settings load per
    element. *)
Definition hydrates_every_element (dev : instr_ref) (qs : list instr_ref)
    (s : state) : Prop :=
  forall s', Script.register_elements dev qs s = Ok tt s' ->
    registrations (trace s') = registrations (trace s) + length qs
    /\ hydration_attempts (trace s') = hydration_attempts (trace s) + length qs.

(** ** Further readings of a session *)

(** The numbers printed with [:.2f], in the order they are printed. *)
Definition fixed2_of (p : piece) : list Q :=
  match p with
  | Fixed2 q => [q]
  | _ => []
  end.

Definition elapsed_reports (t : list event) : list Q :=
  flat_map (fun e => match e with
                     | EPrint items => flat_map fixed2_of items
                     | _ => []
                     end) t.

Definition is_print (e : event) : bool :=
  match e with EPrint _ => true | _ => false end.

(** A trace without what was printed. *)
Definition silent (t : list event) : list event :=
  List.filter (fun e => negb (is_print e)) t.

Definition is_add_component (e : event) : bool :=
  match e with EAddComponent _ _ => true | _ => false end.

(** The name under which an event registers an instrument, if it
    registers one. *)
Definition created_name (e : event) : option string :=
  match e with
  | EConnect n _ | ENew _ n => Some n
  | _ => None
  end.

Definition constructed_names (t : list event) : list string :=
  omap created_name t.

(** The instrument names an event relies on: the instrument it is
    called on, the instrument it is handed, and the name a parameter
    [instr_...] is pointed at. *)
Definition references (e : event) : list string :=
  match e with
  | EGetSystemState n | EReset n => [n]
  | ESetParam n param v =>
      n :: (if String.prefix "instr_" param
            then match v with VStr target => [target] | _ => [] end
            else [])
  | EAddComponent a b | EAddElement a b => [a; b]
  | _ => []
  end.

(** Every name an event relies on was registered by an earlier event. *)
Fixpoint well_scoped_from (known : list string) (t : list event) : bool :=
  match t with
  | [] => true
  | e :: t' =>
      forallb (fun n => existsb (String.eqb n) known) (references e)
      && well_scoped_from (match created_name e with
                           | Some n => n :: known
                           | None => known
                           end) t'
  end.

Definition well_scoped (t : list event) : bool := well_scoped_from [] t.

(** The instrument a module-level variable is bound to: its registered
    name and its class. *)
Definition instrument_of_variable (s : state) (x : string)
  : option (string * iclass) :=
  match globals s !! x with
  | Some (VInstr r) =>
      match instruments s !! instr_name r with
      | Some i => Some (instr_name r, icls i)
      | None => None
      end
  | _ => None
  end.

(** Ports are written [element:port] and clocks [element.clock]: the
    part of a name before the separator is the device element. *)
Fixpoint before_sep (sep : ascii) (name : string) : string :=
  match name with
  | EmptyString => EmptyString
  | String c rest =>
      if Ascii.eqb c sep then EmptyString else String c (before_sep sep rest)
  end.

Definition port_element (port : string) : string := before_sep ":" port.
Definition clock_element (clk : string) : string := before_sep "." clk.

(** A [portclock_configs] entry whose port and clock both belong to one
    of the given device elements. *)
Definition entry_of_registered_element (elems : list pyval) (entry : pyval)
  : Prop :=
  exists p c, Config.port_clock entry = Some (p, c)
              /\ In (VStr (port_element p)) elems
              /\ In (VStr (clock_element c)) elems.

(** The same machine, with a cluster that reports something else. *)
Definition with_system_state (f : string -> string) (w : world) : world :=
  {| home := home w; clock := clock w; existing_dirs := existing_dirs w;
     can_mkdir := can_mkdir w; reachable := reachable w; system_state := f |}.

(** The laboratory machine with the cluster switched off. *)
Definition lab_offline : world :=
  {| home := "/home/lab";
     clock := fun n => (Z.of_nat n # 1)%Q;
     existing_dirs := {["/home/lab"]};
     can_mkdir := fun _ => true;
     reachable := fun _ => false;
     system_state := fun _ => "OKAY" |}.

(** The laboratory machine with a home directory that cannot be written
    to, and the cluster switched off as well. *)
Definition lab_read_only : world :=
  {| home := "/home/lab";
     clock := fun n => (Z.of_nat n # 1)%Q;
     existing_dirs := {["/home/lab"]};
     can_mkdir := fun _ => false;
     reachable := fun _ => false;
     system_state := fun _ => "OKAY" |}.


(** The session of [lab_device_ready] after the loop over two elements. *)
Definition lab_two_registered : state :=
  match Script.register_elements (Ref "quantum_device") [Ref "q00"; Ref "q01"]
          lab_device_ready with
  | Ok _ s => s
  | Raise _ => lab_device_ready
  end.

(** * Properties *)

Import Config Script.

(** ** The configuration literal *)

Example clusters_of_hardware_cfg :
  map fst (clusters hardware_cfg) = ["clusterA"].
Proof. reflexivity. Qed.

Example modules_of_clusterA :
  map fst (flat_map (fun c => modules (snd c)) (clusters hardware_cfg))
  = ["clusterA_module2"; "clusterA_module10"].
Proof. reflexivity. Qed.

Example outputs_of_the_modules :
  map fst (flat_map (fun m => outputs (snd m))
             (flat_map (fun c => modules (snd c)) (clusters hardware_cfg)))
  = ["complex_output_0"; "complex_output_0"].
Proof. reflexivity. Qed.

Lemma entry_keys_ok (p c : string) (a e : pyval) :
  entry_has_exactly_the_keys
    (VDict [("port", VStr p); ("clock", VStr c);
            ("mixer_amp_ratio", a); ("mixer_phase_error_deg", e)]).
Proof. eexists; split; [reflexivity | apply Permutation_refl]. Qed.

Ltac module_ok :=
  split; [cbn; lia | constructor; [| constructor]];
  eexists; split;
  [reflexivity
  | split; [cbn; lia | constructor; [apply entry_keys_ok | constructor]]].

(** C1: [hardware_cfg] has the key [backend]; it has a cluster, every
    cluster has the keys [ref] and [instrument_type] and at least one
    module; and for every module, the [portclock_configs] value of each
    of its outputs is a non-empty list whose elements are mappings with
    exactly the keys port, clock, mixer_amp_ratio and
    mixer_phase_error_deg. *)
Theorem hardware_cfg_shape :
  dict_has "backend" hardware_cfg = true
  /\ 0 < length (clusters hardware_cfg)
  /\ Forall (fun c => 0 < length (modules (snd c))) (clusters hardware_cfg)
  /\ Forall (fun c => cluster_well_formed (snd c)) (clusters hardware_cfg).
Proof.
  split; [reflexivity |].
  split; [cbn; lia |].
  split; [repeat constructor |].
  constructor; [| constructor].
  split; [reflexivity |]. split; [reflexivity |].
  cbn [snd hardware_cfg clusters modules submappings].
  constructor; [module_ok | constructor; [module_ok | constructor]].
Qed.

(** C5: within each cluster of [hardware_cfg], every [portclock_configs]
    entry of every module binds a port and a clock, and no (port, clock)
    pair occurs twice, whether in one module or in two. *)
Theorem port_clock_pairs_unique :
  Forall (fun c =>
            exists pairs,
              map port_clock (cluster_portclocks (snd c)) = map Some pairs
              /\ NoDup pairs)
         (clusters hardware_cfg).
Proof.
  constructor; [| constructor].
  exists [("q00:mw", "q00.01"); ("q00:res", "q00.ro")].
  split; [reflexivity |].
  apply NoDup_cons_2; [| apply NoDup_singleton].
  intros H. apply list_elem_of_singleton in H. discriminate.
Qed.

(** ** The loop over the device elements *)

Lemma hydration_attempts_snoc (t : list event) (e : event) :
  is_load_settings e = false ->
  hydration_attempts (t ++ [e]) = hydration_attempts t.
Proof.
  intros He. unfold hydration_attempts.
  rewrite List.filter_app, length_app. cbn. rewrite He. cbn. lia.
Qed.

Lemma registrations_snoc_other (t : list event) (e : event) :
  is_add_element e = false ->
  registrations (t ++ [e]) = registrations t.
Proof.
  intros He. unfold registrations.
  rewrite List.filter_app, length_app. cbn. rewrite He. cbn. lia.
Qed.

Lemma registrations_snoc_add (t : list event) (dev elem : string) :
  registrations (t ++ [EAddElement dev elem]) = S (registrations t).
Proof.
  unfold registrations.
  rewrite List.filter_app, length_app. cbn. lia.
Qed.

Lemma already_added_elements (n : string) (dev : instr_ref) (s : state) :
  already_added "elements" n (instr_name dev) (instruments s)
  = has_name n (registered_elements s dev).
Proof.
  unfold already_added, registered_elements.
  destruct (instruments s !! instr_name dev) as [x |]; [| reflexivity].
  destruct (iparams x !! "elements") as [[] |]; reflexivity.
Qed.

Lemma has_name_snoc (n n' : string) (l : list pyval) :
  has_name n (l ++ [VStr n']) = has_name n l || String.eqb n' n.
Proof.
  unfold has_name. rewrite existsb_app. cbn. now rewrite orb_false_r.
Qed.

Lemma isinstance_alter (t : iclass -> bool) (n d : string)
    (f : instrument -> instrument) (m : gmap string instrument) :
  (forall x, icls (f x) = icls x) ->
  isinstance t n (alter f d m) = isinstance t n m.
Proof.
  intros Hf. unfold isinstance.
  destruct (decide (d = n)) as [-> | Hne].
  - rewrite lookup_alter_eq. destruct (m !! n); cbn; [now rewrite Hf | reflexivity].
  - now rewrite lookup_alter_ne.
Qed.

(** One pass through the loop body, for a device element that is not
    registered yet. *)
Lemma loop_body_effect (dev q : instr_ref) (s : state) (i : instrument) :
  instruments s !! instr_name dev = Some i ->
  isinstance is_DeviceElement (instr_name q) (instruments s) = true ->
  has_name (instr_name q) (registered_elements s dev) = false ->
  exists s' i',
    (assign "qubit" (VInstr q) ;; add_element dev q) s = Ok tt s'
    /\ instruments s' !! instr_name dev = Some i'
    /\ (forall n, isinstance is_DeviceElement n (instruments s')
                  = isinstance is_DeviceElement n (instruments s))
    /\ registered_elements s' dev
       = registered_elements s dev ++ [VStr (instr_name q)]
    /\ trace s'
       = trace s ++ [EBind "qubit";
                     EAddElement (instr_name dev) (instr_name q)].
Proof.
  intros Hi Hq Hnew.
  rewrite <- already_added_elements in Hnew.
  eexists. exists (append_name "elements" (instr_name q) i).
  split.
  { unfold mbind, M_bind, bind, assign, add_element.
    cbn [set_trace set_globals set_instruments instruments trace globals
         dirs datadir ticks].
    rewrite Hnew, Hq. reflexivity. }
  unfold registered_elements. cbn.
  rewrite lookup_alter_eq, Hi. cbn.
  rewrite lookup_insert_eq, <- app_assoc.
  repeat split; try reflexivity.
  intros n. now apply isinstance_alter.
Qed.


(** After one more registration the other elements of a list without
    repetitions are still new. *)
Lemma still_new (dev q : instr_ref) (qs : list instr_ref) (s s1 : state) :
  instr_name q ∉ map instr_name qs ->
  Forall (fun q' => has_name (instr_name q') (registered_elements s dev) = false)
         qs ->
  registered_elements s1 dev
  = registered_elements s dev ++ [VStr (instr_name q)] ->
  Forall (fun q' => has_name (instr_name q') (registered_elements s1 dev) = false)
         qs.
Proof.
  intros Hnotin Hnew Hreg. rewrite Forall_forall in Hnew.
  apply Forall_forall. intros q' Hin.
  rewrite Hreg, has_name_snoc, (Hnew q' Hin). cbn.
  apply String.eqb_neq. intros Heq. apply Hnotin. rewrite Heq.
  apply list_elem_of_In, in_map, list_elem_of_In, Hin.
Qed.

Lemma register_elements_cons (dev q : instr_ref) (qs : list instr_ref) (s : state) :
  register_elements dev (q :: qs) s
  = match (assign "qubit" (VInstr q) ;; add_element dev q) s with
    | Raise e => Raise e
    | Ok _ s1 => register_elements dev qs s1
    end.
Proof. reflexivity. Qed.

(** C2, as the script has it: for every list of N device elements with
    pairwise different names, none of them registered in the device
    yet, the loop completes, appends the N names to the registry's
    elements in list order, makes N registrations, and attempts no
    settings load at all: the [try] block is commented out, so no
    settings lookup is made and none can fail. *)
Theorem register_elements_registers_all
    (dev : instr_ref) (qs : list instr_ref) (s : state) (i : instrument) :
  instruments s !! instr_name dev = Some i ->
  Forall (fun q => isinstance is_DeviceElement (instr_name q) (instruments s)
                   = true) qs ->
  NoDup (map instr_name qs) ->
  Forall (fun q => has_name (instr_name q) (registered_elements s dev) = false)
         qs ->
  exists s',
    register_elements dev qs s = Ok tt s'
    /\ registered_elements s' dev
       = registered_elements s dev ++ map (fun q => VStr (instr_name q)) qs
    /\ registrations (trace s') = registrations (trace s) + length qs
    /\ hydration_attempts (trace s') = hydration_attempts (trace s).
Proof.
  revert s i. induction qs as [| q qs IH]; intros s i Hi Hcls Hdistinct Hnew.
  - exists s. cbn. rewrite app_nil_r, Nat.add_0_r. auto.
  - apply Forall_cons in Hcls as [Hq Hcls].
    apply Forall_cons in Hnew as [Hqnew Hnew].
    cbn [map] in Hdistinct. apply NoDup_cons in Hdistinct as [Hnotin Hdistinct].
    destruct (loop_body_effect dev q s i Hi Hq Hqnew)
      as (s1 & i1 & Hrun & Hi1 & Hsame & Hreg & Htr).
    destruct (IH s1 i1 Hi1) as (s2 & Hrest & Hreg2 & Hcnt & Hhyd).
    + eapply Forall_impl; [exact Hcls |]. cbn. intros q' Hq'. now rewrite Hsame.
    + exact Hdistinct.
    + now apply (still_new dev q qs s s1).
    + exists s2. split; [rewrite register_elements_cons, Hrun; exact Hrest |].
      rewrite Hreg2, Hreg, Hcnt, Hhyd, Htr, <- app_assoc.
      change (trace s ++ [EBind "qubit"; EAddElement (instr_name dev) (instr_name q)])
        with (trace s ++ [EBind "qubit"] ++ [EAddElement (instr_name dev) (instr_name q)]).
      rewrite !app_assoc.
      rewrite registrations_snoc_add, registrations_snoc_other by reflexivity.
      rewrite !hydration_attempts_snoc by reflexivity.
      cbn [map length app]. repeat split; [now rewrite <- app_assoc | lia].
Qed.

Lemma register_elements_registers_all_witness :
  instruments lab_device_ready !! instr_name (Ref "quantum_device")
  = Some {| icls := QuantumDevice_t; iparams := {["elements" := VList []]} |}
  /\ Forall (fun q => isinstance is_DeviceElement (instr_name q)
                                 (instruments lab_device_ready) = true)
            [Ref "q00"; Ref "q01"]
  /\ NoDup (map instr_name [Ref "q00"; Ref "q01"])
  /\ Forall (fun q => has_name (instr_name q)
                         (registered_elements lab_device_ready
                            (Ref "quantum_device")) = false)
            [Ref "q00"; Ref "q01"]
  /\ exists s',
      register_elements (Ref "quantum_device") [Ref "q00"; Ref "q01"] lab_device_ready
      = Ok tt s'
      /\ registered_elements s' (Ref "quantum_device")
         = registered_elements lab_device_ready (Ref "quantum_device")
           ++ map (fun q => VStr (instr_name q)) [Ref "q00"; Ref "q01"]
      /\ registrations (trace s') = registrations (trace lab_device_ready) + 2
      /\ hydration_attempts (trace s') = hydration_attempts (trace lab_device_ready).
Proof.
  assert (Hdev : instruments lab_device_ready !! instr_name (Ref "quantum_device")
                 = Some {| icls := QuantumDevice_t;
                           iparams := {["elements" := VList []]} |})
    by (vm_compute; reflexivity).
  assert (Hcls : Forall (fun q => isinstance is_DeviceElement (instr_name q)
                                    (instruments lab_device_ready) = true)
                        [Ref "q00"; Ref "q01"])
    by (repeat (apply Forall_cons_2; [vm_compute; reflexivity |]);
        apply Forall_nil_2).
  assert (Hdistinct : NoDup (map instr_name [Ref "q00"; Ref "q01"]))
    by (apply (bool_decide_unpack _); vm_compute; reflexivity).
  assert (Hnew : Forall (fun q => has_name (instr_name q)
                                    (registered_elements lab_device_ready
                                       (Ref "quantum_device")) = false)
                        [Ref "q00"; Ref "q01"])
    by (repeat (apply Forall_cons_2; [vm_compute; reflexivity |]);
        apply Forall_nil_2).
  split; [exact Hdev |]. split; [exact Hcls |].
  split; [exact Hdistinct |]. split; [exact Hnew |].
  exact (register_elements_registers_all (Ref "quantum_device")
           [Ref "q00"; Ref "q01"] lab_device_ready _ Hdev Hcls Hdistinct Hnew).
Defined.

(** C2 as stated fails: with one element to register, the loop makes one
    registration and no settings load, not one. *)
Lemma hydration_is_not_attempted :
  ~ hydrates_every_element (Ref "quantum_device") [Ref "q00"] lab_device_ready.
Proof.
  intros H.
  destruct (H (match register_elements (Ref "quantum_device") [Ref "q00"]
                       lab_device_ready with
               | Ok _ s => s
               | Raise _ => lab_device_ready
               end)) as [_ Hhyd].
  - vm_compute; reflexivity.
  - vm_compute in Hhyd. discriminate Hhyd.
Qed.

(** ** Running the script symbolically *)

Ltac unfold_script H :=
  cbv beta iota zeta delta
    [run run_with script script_with
     mbind M_bind bind mret M_ret ret basic_imports
     specify_hardware_configuration configure_basic_settings
     physical_instruments hardware_abstraction_layer utility_instruments
     config_management_instruments loading_settings register_elements
     for_each time_time assign print log set_datadir get_datadir
     new_instrument Cluster get_system_state reset set_parameter
     ClusterComponent InstrumentCoordinator add_component MeasurementControl
     PlotMonitor_pyqt InstrumentMonitor BasicTransmonElement QuantumDevice
     instr_plotmon instr_measurement_control instr_instrument_coordinator
     hardware_config add_element initial_state set_trace set_globals
     set_dirs set_datadir_field set_instruments set_ticks trace globals
     dirs datadir instruments ticks map instr_name] in H.

(** A test that mentions a variable of the context depends on the
    world or on the session and is split in two cases; any other test
    is decided by computation. *)
Ltac mentions_a_variable b :=
  match b with
  | context [?x] => is_var x
  end.

Ltac split_outcomes H :=
  repeat match type of H with
         | context [if ?b then _ else _] =>
             tryif mentions_a_variable b
             then (destruct b eqn:?; cbv beta iota in H)
             else (let v := eval vm_compute in b in
                   replace b with v in H by (vm_compute; reflexivity);
                   cbv beta iota in H)
         end.

Lemma Ok_inv {A : Type} (a a' : A) (s s' : state) :
  Ok a s = Ok a' s' -> a = a' /\ s = s'.
Proof. intros H. injection H as -> ->. split; reflexivity. Qed.

Lemma Raise_inv {A : Type} (e e' : exn) : @Raise A e = Raise e' -> e = e'.
Proof. intros H. injection H as ->. reflexivity. Qed.

(** From [H : ... = Ok a s], the session [s] a completed run ends in,
    one goal per way of completing. *)
Ltac completed H :=
  unfold_script H; split_outcomes H; try discriminate H;
  apply Ok_inv in H; destruct H as [? ?]; subst.

Ltac present_dir :=
  match goal with
  | Hb : bool_decide (?p ∈ ?d) = true |- ?p ∈ ?d =>
      exact (proj1 (bool_decide_eq_true _) Hb)
  end.

(** ** The data directory *)

Lemma configure_basic_settings_Ok (w : world) (s s1 : state) :
  configure_basic_settings w s = Ok tt s1 ->
  datadir s1 = Some (os_path_join (home w) "quantify-data")
  /\ os_path_join (home w) "quantify-data" ∈ dirs s1.
Proof.
  intros H. completed H; cbn.
  - split; [reflexivity |]. present_dir.
  - split; [reflexivity |]. set_solver.
Qed.

Lemma configure_basic_settings_present (w : world) (s : state) :
  os_path_join (home w) "quantify-data" ∈ dirs s ->
  exists s2,
    configure_basic_settings w s = Ok tt s2
    /\ datadir s2 = Some (os_path_join (home w) "quantify-data")
    /\ dirs s2 = dirs s.
Proof.
  intros Hin.
  assert (Hb : bool_decide (os_path_join (home w) "quantify-data" ∈ dirs s) = true)
    by (apply bool_decide_eq_true_2; exact Hin).
  unfold configure_basic_settings, set_datadir, get_datadir.
  cbv beta iota zeta delta [mbind M_bind bind set_trace set_datadir_field
                            dirs datadir trace print log].
  destruct s as [g d dd ins tk tr]. cbn in Hb |- *.
  rewrite !Hb. eexists. repeat split.
Qed.

(** C6: when the data-directory step has completed once, running it
    again in the same world (same home directory) completes too, and
    leaves the registered data directory and the filesystem as the
    first run left them. *)
Theorem configure_basic_settings_idempotent (w : world) (s s1 : state) :
  configure_basic_settings w s = Ok tt s1 ->
  exists s2,
    configure_basic_settings w s1 = Ok tt s2
    /\ datadir s1 = Some (os_path_join (home w) "quantify-data")
    /\ datadir s2 = datadir s1
    /\ dirs s2 = dirs s1.
Proof.
  intros H. apply configure_basic_settings_Ok in H as [Hd Hin].
  destruct (configure_basic_settings_present w s1 Hin) as (s2 & Hrun & Hd2 & Hdirs).
  exists s2. rewrite Hd, Hd2. auto.
Qed.

Lemma configure_basic_settings_idempotent_witness :
  configure_basic_settings lab (initial_state lab) = Ok tt lab_after_setup
  /\ exists s2,
      configure_basic_settings lab lab_after_setup = Ok tt s2
      /\ datadir lab_after_setup = Some (os_path_join (home lab) "quantify-data")
      /\ datadir s2 = datadir lab_after_setup
      /\ dirs s2 = dirs lab_after_setup.
Proof.
  split; [vm_compute; reflexivity |].
  apply (configure_basic_settings_idempotent lab (initial_state lab)).
  vm_compute; reflexivity.
Defined.




Example lab_datadir : datadir lab_session = Some "/home/lab/quantify-data".
Proof. vm_compute; reflexivity. Qed.

(** ** Order of the stages *)

(** C3, as the script has it: a completed run goes through
    configuration assembly, then environment setup, then session
    construction, then state hydration. *)
Theorem stages_in_script_order (w : world) (s : state) :
  run w = Ok tt s ->
  stage_sequence (trace s)
  = [ConfigurationAssembly; EnvironmentSetup; SessionConstruction; StateHydration].
Proof. intros H. completed H; reflexivity. Qed.

Lemma stages_in_script_order_witness :
  run lab = Ok tt lab_session
  /\ stage_sequence (trace lab_session)
     = [ConfigurationAssembly; EnvironmentSetup; SessionConstruction; StateHydration].
Proof.
  split; [vm_compute; reflexivity |].
  apply (stages_in_script_order lab lab_session).
  vm_compute; reflexivity.
Defined.

(** C3 as stated fails: the run on the laboratory machine does not
    start with environment setup. *)
Lemma stages_not_as_specified :
  run lab = Ok tt lab_session /\ ~ stages_as_specified (trace lab_session).
Proof.
  split; [vm_compute; reflexivity |].
  unfold stages_as_specified. vm_compute. discriminate.
Qed.

(** The configuration is bound before the data directory is set. *)
Lemma hardware_cfg_before_set_datadir (w : world) (s : state) :
  run w = Ok tt s ->
  exists t1 t2,
    trace s = t1 ++ [EBind "hardware_cfg";
                     ESetDatadir (os_path_join (home w) "quantify-data")] ++ t2.
Proof.
  intros H. completed H.
  all: exists [EClock; EBind "t0"; EClock; EBind "t1";
               EPrint [Text "Finished basic imports ";
                       Fixed2 (clock w 1 - clock w 0)%Q; Text " s"];
               EBind "RO_settings"].
  all: eexists; reflexivity.
Qed.

(** ** The cluster connection *)

(** C4, as the script has it: the cluster section connects to
    [clusterA] at 192.0.2.142, then queries and prints its system
    state, and resets it last. *)
Theorem physical_instruments_order (w : world) (s s' : state) (c : instr_ref) :
  physical_instruments w s = Ok c s' ->
  c = Ref "clusterA"
  /\ trace s'
     = trace s ++
       [EPrint [Text "connecting to qblox-cluster-MM."];
        EConnect "clusterA" "192.0.2.142";
        EBind "cluster0";
        EGetSystemState "clusterA";
        EPrint [Text ("CMM system status is " +:+ newline);
                Shown (system_state w "clusterA")];
        EPrint [Text ("correctly connected to qblox-cluster-MM." +:+ newline)];
        EReset "clusterA"].
Proof.
  intros H. completed H. split; [reflexivity |].
  cbn [trace]. now rewrite <- !app_assoc.
Qed.

Lemma physical_instruments_order_witness :
  physical_instruments lab (initial_state lab) = Ok (Ref "clusterA") lab_connected
  /\ Ref "clusterA" = Ref "clusterA"
  /\ trace lab_connected
     = trace (initial_state lab) ++
       [EPrint [Text "connecting to qblox-cluster-MM."];
        EConnect "clusterA" "192.0.2.142";
        EBind "cluster0";
        EGetSystemState "clusterA";
        EPrint [Text ("CMM system status is " +:+ newline);
                Shown (system_state lab "clusterA")];
        EPrint [Text ("correctly connected to qblox-cluster-MM." +:+ newline)];
        EReset "clusterA"].
Proof.
  split; [vm_compute; reflexivity |].
  apply (physical_instruments_order lab (initial_state lab) lab_connected).
  vm_compute; reflexivity.
Defined.

(** C4 as stated fails: no reset lies between the connection and the
    status query. *)
Lemma reset_is_not_before_status :
  physical_instruments lab (initial_state lab) = Ok (Ref "clusterA") lab_connected
  /\ ~ connect_reset_status (trace lab_connected).
Proof.
  split; [vm_compute; reflexivity |].
  unfold connect_reset_status. vm_compute. discriminate.
Qed.

Lemma status_is_before_reset (w : world) (s : state) :
  run w = Ok tt s -> connect_status_reset (trace s).
Proof. intros H. completed H; reflexivity. Qed.

(** ** Measurement control and the device registry *)

(** C9: a completed run constructs exactly two measurement-control
    instruments, [meas_ctrl] and [nested_meas_ctrl]; the [instr_plotmon]
    parameter of the first holds the string "plotmon" and that of the
    second the string "plotmon_nested", each the name of a registered
    plot monitor. *)
Theorem measurement_controls_bound_by_name (w : world) (s : state) :
  run w = Ok tt s ->
  List.filter (is_new MeasurementControl_t) (trace s)
  = [ENew MeasurementControl_t "meas_ctrl";
     ENew MeasurementControl_t "nested_meas_ctrl"]
  /\ instruments_of_class MeasurementControl_t s
     = ["meas_ctrl"; "nested_meas_ctrl"]
  /\ instruments s !! "meas_ctrl"
     = Some {| icls := MeasurementControl_t;
               iparams := {["instr_plotmon" := VStr "plotmon"]} |}
  /\ instruments s !! "nested_meas_ctrl"
     = Some {| icls := MeasurementControl_t;
               iparams := {["instr_plotmon" := VStr "plotmon_nested"]} |}
  /\ instruments s !! "plotmon"
     = Some {| icls := PlotMonitor_pyqt_t; iparams := ∅ |}
  /\ instruments s !! "plotmon_nested"
     = Some {| icls := PlotMonitor_pyqt_t; iparams := ∅ |}.
Proof.
  intros H. completed H.
  all: cbn [trace instruments].
  all: repeat split; vm_compute; reflexivity.
Qed.

Lemma measurement_controls_bound_by_name_witness :
  run lab = Ok tt lab_session
  /\ List.filter (is_new MeasurementControl_t) (trace lab_session)
     = [ENew MeasurementControl_t "meas_ctrl";
        ENew MeasurementControl_t "nested_meas_ctrl"]
  /\ instruments_of_class MeasurementControl_t lab_session
     = ["meas_ctrl"; "nested_meas_ctrl"]
  /\ instruments lab_session !! "meas_ctrl"
     = Some {| icls := MeasurementControl_t;
               iparams := {["instr_plotmon" := VStr "plotmon"]} |}
  /\ instruments lab_session !! "nested_meas_ctrl"
     = Some {| icls := MeasurementControl_t;
               iparams := {["instr_plotmon" := VStr "plotmon_nested"]} |}
  /\ instruments lab_session !! "plotmon"
     = Some {| icls := PlotMonitor_pyqt_t; iparams := ∅ |}
  /\ instruments lab_session !! "plotmon_nested"
     = Some {| icls := PlotMonitor_pyqt_t; iparams := ∅ |}.
Proof.
  split; [vm_compute; reflexivity |].
  apply (measurement_controls_bound_by_name lab lab_session).
  vm_compute; reflexivity.
Defined.

(** C8: after a completed run the registry [quantum_device] holds the
    name strings "meas_ctrl" and "instrument_coordinator" of a
    registered measurement control and a registered instrument
    coordinator, holds [hardware_cfg] as its hardware configuration,
    and has the name of every element of [list_of_qubits] among its
    elements. *)
Theorem quantum_device_bindings (w : world) (s : state) :
  run w = Ok tt s ->
  exists qd mc ic q,
    instruments s !! "quantum_device" = Some qd
    /\ icls qd = QuantumDevice_t
    /\ iparams qd !! "instr_measurement_control" = Some (VStr "meas_ctrl")
    /\ instruments s !! "meas_ctrl" = Some mc
    /\ icls mc = MeasurementControl_t
    /\ iparams qd !! "instr_instrument_coordinator"
       = Some (VStr "instrument_coordinator")
    /\ instruments s !! "instrument_coordinator" = Some ic
    /\ icls ic = InstrumentCoordinator_t
    /\ iparams qd !! "hardware_config" = Some (VDict Config.hardware_cfg)
    /\ globals s !! "hardware_cfg" = Some (VDict Config.hardware_cfg)
    /\ globals s !! "list_of_qubits" = Some (VList [VInstr (Ref "q00")])
    /\ registered_elements s (Ref "quantum_device") = [VStr "q00"]
    /\ instruments s !! "q00" = Some q
    /\ icls q = BasicTransmonElement_t.
Proof.
  intros H. completed H.
  all: cbn [globals instruments].
  all: do 4 eexists.
  all: repeat (split; [vm_compute; reflexivity |]).
  all: vm_compute; reflexivity.
Qed.

Lemma quantum_device_bindings_witness :
  run lab = Ok tt lab_session
  /\ exists qd mc ic q,
    instruments lab_session !! "quantum_device" = Some qd
    /\ icls qd = QuantumDevice_t
    /\ iparams qd !! "instr_measurement_control" = Some (VStr "meas_ctrl")
    /\ instruments lab_session !! "meas_ctrl" = Some mc
    /\ icls mc = MeasurementControl_t
    /\ iparams qd !! "instr_instrument_coordinator"
       = Some (VStr "instrument_coordinator")
    /\ instruments lab_session !! "instrument_coordinator" = Some ic
    /\ icls ic = InstrumentCoordinator_t
    /\ iparams qd !! "hardware_config" = Some (VDict Config.hardware_cfg)
    /\ globals lab_session !! "hardware_cfg" = Some (VDict Config.hardware_cfg)
    /\ globals lab_session !! "list_of_qubits" = Some (VList [VInstr (Ref "q00")])
    /\ registered_elements lab_session (Ref "quantum_device") = [VStr "q00"]
    /\ instruments lab_session !! "q00" = Some q
    /\ icls q = BasicTransmonElement_t.
Proof.
  split; [vm_compute; reflexivity |].
  apply (quantum_device_bindings lab lab_session).
  vm_compute; reflexivity.
Defined.

(** ** [RO_settings] is never read *)

(** C10: whatever [RO_settings] is bound to, the script ends the same
    way: with the same exception, or with sessions that agree on every
    other global (among them [hardware_cfg]), on the filesystem, the
    data directory, the instruments and the trace. *)
Theorem RO_settings_is_dead (w : world) (ro1 ro2 : pyval) :
  same_outcome (run_with w ro1) (run_with w ro2).
Proof.
  unfold same_outcome.
  destruct (run_with w ro1) eqn:H1; destruct (run_with w ro2) eqn:H2.
  all: unfold_script H1; unfold_script H2.
  all: split_outcomes H1; cbv beta iota in H2; split_outcomes H2.
  all: try discriminate H1; try discriminate H2.
  all: try (apply Raise_inv in H1, H2; subst; reflexivity).
  all: apply Ok_inv in H1; destruct H1 as [_ <-].
  all: apply Ok_inv in H2; destruct H2 as [_ <-].
  all: unfold same_session; cbn [globals dirs datadir instruments ticks trace].
  all: repeat split; reflexivity.
Qed.

Lemma RO_settings_is_bound (w : world) (ro : pyval) (s : state) :
  run_with w ro = Ok tt s -> globals s !! "RO_settings" = Some ro.
Proof.
  intros H. completed H; cbn [globals]; vm_compute; reflexivity.
Qed.

(** * Further properties of the script *)

(** ** How a run ends *)

Ltac impossible_dir :=
  match goal with
  | Hb : bool_decide (_ ∈ {[_]} ∪ _) = false |- _ =>
      exfalso; apply (proj1 (bool_decide_eq_false _) Hb); set_solver
  | Hb : bool_decide (?p ∈ ?d) = false, Hin : ?p ∈ ?d |- _ =>
      exfalso; exact (proj1 (bool_decide_eq_false _) Hb Hin)
  | Hb : bool_decide (?p ∈ ?d) = true, Hout : ?p ∉ ?d |- _ =>
      exfalso; exact (Hout (proj1 (bool_decide_eq_true _) Hb))
  end.

(** X2: when the data directory is missing and cannot be created, the
    run aborts with the filesystem error of [set_datadir], whether or
    not the cluster could have been reached: the data directory is set
    before the connection is attempted. *)
Theorem directory_failure_comes_first (w : world) :
  os_path_join (home w) "quantify-data" ∉ existing_dirs w ->
  can_mkdir w (os_path_join (home w) "quantify-data") = false ->
  run w = Raise (OSError (os_path_join (home w) "quantify-data")).
Proof.
  intros Hdir Hmk.
  destruct (run w) as [e | [] s] eqn:H.
  all: unfold_script H; split_outcomes H; try discriminate H.
  all: try impossible_dir.
  all: congruence.
Qed.

Lemma directory_failure_comes_first_witness :
  (os_path_join (home lab_read_only) "quantify-data"
   ∉ existing_dirs lab_read_only)
  /\ can_mkdir lab_read_only (os_path_join (home lab_read_only) "quantify-data")
     = false
  /\ reachable lab_read_only "192.0.2.142" = false
  /\ run lab_read_only
     = Raise (OSError (os_path_join (home lab_read_only) "quantify-data")).
Proof.
  assert (Hdir : os_path_join (home lab_read_only) "quantify-data"
                 ∉ existing_dirs lab_read_only).
  { apply (bool_decide_unpack _). vm_compute. reflexivity. }
  split; [exact Hdir |].
  split; [reflexivity |].
  split; [reflexivity |].
  apply (directory_failure_comes_first lab_read_only Hdir).
  reflexivity.
Defined.

(** X3: when the data directory can be set but the cluster does not
    answer at 192.0.2.142, the run aborts with the connection error;
    nothing after the [Cluster] call is executed. *)
Theorem unreachable_cluster_aborts (w : world) :
  os_path_join (home w) "quantify-data" ∈ existing_dirs w
  \/ can_mkdir w (os_path_join (home w) "quantify-data") = true ->
  reachable w "192.0.2.142" = false ->
  run w = Raise (ConnectionError "192.0.2.142").
Proof.
  intros Hdir Hnet.
  destruct (run w) as [e | [] s] eqn:H.
  all: unfold_script H; split_outcomes H; try discriminate H.
  all: try impossible_dir.
  all: try congruence.
  all: destruct Hdir as [Hin | Hmk]; try discriminate; impossible_dir.
Qed.

Lemma unreachable_cluster_aborts_witness :
  (os_path_join (home lab_offline) "quantify-data" ∈ existing_dirs lab_offline
   \/ can_mkdir lab_offline (os_path_join (home lab_offline) "quantify-data")
      = true)
  /\ reachable lab_offline "192.0.2.142" = false
  /\ run lab_offline = Raise (ConnectionError "192.0.2.142").
Proof.
  assert (Hdir : os_path_join (home lab_offline) "quantify-data"
                 ∈ existing_dirs lab_offline
                 \/ can_mkdir lab_offline
                      (os_path_join (home lab_offline) "quantify-data") = true).
  { right. reflexivity. }
  split; [exact Hdir |].
  split; [reflexivity |].
  apply (unreachable_cluster_aborts lab_offline Hdir).
  reflexivity.
Defined.

(** ** The clock *)

(** X4: a completed run reads the clock four times (t0 to t3) and
    prints three elapsed times, each measured from the first reading
    t0: t1 - t0, t2 - t0 and t3 - t0, in that order. *)
Theorem elapsed_times_since_start (w : world) (s : state) :
  run w = Ok tt s ->
  ticks s = 4
  /\ elapsed_reports (trace s)
     = [(clock w 1 - clock w 0)%Q; (clock w 2 - clock w 0)%Q;
        (clock w 3 - clock w 0)%Q].
Proof. intros H. completed H; split; reflexivity. Qed.

Lemma elapsed_times_since_start_witness :
  run lab = Ok tt lab_session
  /\ ticks lab_session = 4
  /\ elapsed_reports (trace lab_session)
     = [(clock lab 1 - clock lab 0)%Q; (clock lab 2 - clock lab 0)%Q;
        (clock lab 3 - clock lab 0)%Q].
Proof.
  split; [vm_compute; reflexivity |].
  apply (elapsed_times_since_start lab lab_session).
  vm_compute; reflexivity.
Defined.

(** X5: with a clock that never runs backwards, the three printed
    elapsed times are cumulative: none is negative and each is at least
    the one printed before it. *)
Theorem elapsed_times_cumulative (w : world) (s : state) :
  (forall n, (clock w n <= clock w (S n))%Q) ->
  run w = Ok tt s ->
  exists a b c,
    elapsed_reports (trace s) = [a; b; c]
    /\ (0 <= a)%Q /\ (a <= b)%Q /\ (b <= c)%Q.
Proof.
  intros Hmono H.
  pose proof (Hmono 0) as H0. pose proof (Hmono 1) as H1.
  pose proof (Hmono 2) as H2.
  completed H.
  all: do 3 eexists; split; [reflexivity |].
  all: repeat split; lra.
Qed.

Lemma elapsed_times_cumulative_witness :
  (forall n, (clock lab n <= clock lab (S n))%Q)
  /\ run lab = Ok tt lab_session
  /\ exists a b c,
      elapsed_reports (trace lab_session) = [a; b; c]
      /\ (0 <= a)%Q /\ (a <= b)%Q /\ (b <= c)%Q.
Proof.
  assert (Hmono : forall n, (clock lab n <= clock lab (S n))%Q).
  { intros n. unfold Qle. cbn -[Z.of_nat]. lia. }
  split; [exact Hmono |].
  split; [vm_compute; reflexivity |].
  apply (elapsed_times_cumulative lab lab_session Hmono).
  vm_compute; reflexivity.
Defined.

(** ** Names and references *)

(** X6: in a completed run every instrument is constructed before it is
    used: each call on an instrument, each instrument handed to
    [add_component] or [add_element], and each name stored in an
    [instr_...] parameter refers to an instrument registered by an
    earlier statement. *)
Theorem references_are_constructed_first (w : world) (s : state) :
  run w = Ok tt s -> well_scoped (trace s) = true.
Proof. intros H. completed H; reflexivity. Qed.

Lemma references_are_constructed_first_witness :
  run lab = Ok tt lab_session /\ well_scoped (trace lab_session) = true.
Proof.
  split; [vm_compute; reflexivity |].
  apply (references_are_constructed_first lab lab_session).
  vm_compute; reflexivity.
Defined.

(** X7: in a completed run no two constructor calls use the same name,
    the nine names the script writes out are among the names
    constructed, and every instrument constructed is still registered
    at the end: the script closes none. *)
Theorem instrument_names_distinct (w : world) (s : state) :
  run w = Ok tt s ->
  NoDup (constructed_names (trace s))
  /\ incl ["clusterA"; "instrument_coordinator"; "meas_ctrl";
           "nested_meas_ctrl"; "plotmon"; "plotmon_nested"; "insmon"; "q00";
           "quantum_device"]
          (constructed_names (trace s))
  /\ Forall (fun n => is_registered n (instruments s) = true)
            (constructed_names (trace s)).
Proof.
  intros H. completed H.
  all: cbn [trace instruments].
  all: match goal with
       | |- context [constructed_names ?t] =>
           let l := eval vm_compute in (constructed_names t) in
           replace (constructed_names t) with l by (vm_compute; reflexivity)
       end.
  all: split; [apply (bool_decide_unpack _); vm_compute; reflexivity |].
  all: split;
    [| repeat (apply Forall_cons_2; [vm_compute; reflexivity |]);
       apply Forall_nil_2].
  all: intros n Hn.
  all: repeat (destruct Hn as [<- | Hn];
               [apply list_elem_of_In, (bool_decide_unpack _);
                vm_compute; reflexivity |]).
  all: destruct Hn.
Qed.

Lemma instrument_names_distinct_witness :
  run lab = Ok tt lab_session
  /\ NoDup (constructed_names (trace lab_session))
  /\ incl ["clusterA"; "instrument_coordinator"; "meas_ctrl";
           "nested_meas_ctrl"; "plotmon"; "plotmon_nested"; "insmon"; "q00";
           "quantum_device"]
          (constructed_names (trace lab_session))
  /\ Forall (fun n => is_registered n (instruments lab_session) = true)
            (constructed_names (trace lab_session)).
Proof.
  split; [vm_compute; reflexivity |].
  apply (instrument_names_distinct lab lab_session).
  vm_compute; reflexivity.
Defined.

(** X8: after a completed run each instrument variable of the script is
    bound to a registered instrument of the class it was constructed
    with; [cluster0] is the instrument named clusterA and [q0] the one
    named q00, the others are named like their variable; the loop
    variable [qubit] stays bound to the last element, and [LAST_TUID]
    is [None]. *)
Theorem variables_name_instruments (w : world) (s : state) :
  run w = Ok tt s ->
  map (instrument_of_variable s)
      ["cluster0"; "instrument_coordinator"; "meas_ctrl"; "nested_meas_ctrl";
       "plotmon"; "plotmon_nested"; "insmon"; "q0"; "quantum_device"; "qubit"]
  = map Some
      [("clusterA", Cluster_t);
       ("instrument_coordinator", InstrumentCoordinator_t);
       ("meas_ctrl", MeasurementControl_t);
       ("nested_meas_ctrl", MeasurementControl_t);
       ("plotmon", PlotMonitor_pyqt_t);
       ("plotmon_nested", PlotMonitor_pyqt_t);
       ("insmon", InstrumentMonitor_t);
       ("q00", BasicTransmonElement_t);
       ("quantum_device", QuantumDevice_t);
       ("q00", BasicTransmonElement_t)]
  /\ option_map snd (instrument_of_variable s "ic_cluster0")
     = Some ClusterComponent_t
  /\ globals s !! "LAST_TUID" = Some VNone.
Proof.
  intros H. completed H.
  all: repeat split; vm_compute; reflexivity.
Qed.

Lemma variables_name_instruments_witness :
  run lab = Ok tt lab_session
  /\ map (instrument_of_variable lab_session)
      ["cluster0"; "instrument_coordinator"; "meas_ctrl"; "nested_meas_ctrl";
       "plotmon"; "plotmon_nested"; "insmon"; "q0"; "quantum_device"; "qubit"]
  = map Some
      [("clusterA", Cluster_t);
       ("instrument_coordinator", InstrumentCoordinator_t);
       ("meas_ctrl", MeasurementControl_t);
       ("nested_meas_ctrl", MeasurementControl_t);
       ("plotmon", PlotMonitor_pyqt_t);
       ("plotmon_nested", PlotMonitor_pyqt_t);
       ("insmon", InstrumentMonitor_t);
       ("q00", BasicTransmonElement_t);
       ("quantum_device", QuantumDevice_t);
       ("q00", BasicTransmonElement_t)]
  /\ option_map snd (instrument_of_variable lab_session "ic_cluster0")
     = Some ClusterComponent_t
  /\ globals lab_session !! "LAST_TUID" = Some VNone.
Proof.
  split; [vm_compute; reflexivity |].
  apply (variables_name_instruments lab lab_session).
  vm_compute; reflexivity.
Defined.

(** X9: a completed run connects to one cluster only, resets it once,
    and never loads persisted settings onto an instrument: the SPI
    rack, the signal analyser and the settings load are commented
    out. *)
Theorem one_cluster_and_no_settings_load (w : world) (s : state) :
  run w = Ok tt s ->
  List.filter is_connect (trace s) = [EConnect "clusterA" "192.0.2.142"]
  /\ List.filter is_reset (trace s) = [EReset "clusterA"]
  /\ instruments_of_class Cluster_t s = ["clusterA"]
  /\ hydration_attempts (trace s) = 0.
Proof.
  intros H. completed H.
  all: repeat split; vm_compute; reflexivity.
Qed.

Lemma one_cluster_and_no_settings_load_witness :
  run lab = Ok tt lab_session
  /\ List.filter is_connect (trace lab_session)
     = [EConnect "clusterA" "192.0.2.142"]
  /\ List.filter is_reset (trace lab_session) = [EReset "clusterA"]
  /\ instruments_of_class Cluster_t lab_session = ["clusterA"]
  /\ hydration_attempts (trace lab_session) = 0.
Proof.
  split; [vm_compute; reflexivity |].
  apply (one_cluster_and_no_settings_load lab lab_session).
  vm_compute; reflexivity.
Defined.

(** ** The hardware abstraction layer *)

(** X10: after a completed run the variable [ic_cluster0] is bound to a
    registered cluster component that refers to the cluster clusterA by
    name, and the components of the instrument coordinator are its
    default generic component [ic_generic] followed by that cluster
    component. *)
Theorem coordinator_holds_the_cluster_component (w : world) (s : state) :
  run w = Ok tt s ->
  exists c comp coord,
    globals s !! "ic_cluster0" = Some (VInstr (Ref c))
    /\ instruments s !! c = Some comp
    /\ icls comp = ClusterComponent_t
    /\ iparams comp !! "instrument_ref" = Some (VStr "clusterA")
    /\ option_map icls (instruments s !! "clusterA") = Some Cluster_t
    /\ instruments s !! "instrument_coordinator" = Some coord
    /\ iparams coord !! "components" = Some (VList [VStr "ic_generic"; VStr c])
    /\ option_map icls (instruments s !! "ic_generic")
       = Some GenericInstrumentCoordinatorComponent_t.
Proof.
  intros H. completed H.
  all: cbn [globals instruments trace].
  all: do 3 eexists.
  all: repeat (split; [vm_compute; reflexivity |]).
  all: vm_compute; reflexivity.
Qed.

Lemma coordinator_holds_the_cluster_component_witness :
  run lab = Ok tt lab_session
  /\ exists c comp coord,
    globals lab_session !! "ic_cluster0" = Some (VInstr (Ref c))
    /\ instruments lab_session !! c = Some comp
    /\ icls comp = ClusterComponent_t
    /\ iparams comp !! "instrument_ref" = Some (VStr "clusterA")
    /\ option_map icls (instruments lab_session !! "clusterA") = Some Cluster_t
    /\ instruments lab_session !! "instrument_coordinator" = Some coord
    /\ iparams coord !! "components" = Some (VList [VStr "ic_generic"; VStr c])
    /\ option_map icls (instruments lab_session !! "ic_generic")
       = Some GenericInstrumentCoordinatorComponent_t.
Proof.
  split; [vm_compute; reflexivity |].
  apply (coordinator_holds_the_cluster_component lab lab_session).
  vm_compute; reflexivity.
Defined.

(** ** The configuration and the registered elements *)

(** X11: the hardware configuration attached to [quantum_device] only
    addresses device elements that the script registers: for every
    [portclock_configs] entry, the element named before the colon of
    its port and the element named before the dot of its clock are
    elements of [quantum_device]. *)
Theorem configured_ports_belong_to_registered_elements (w : world) (s : state) :
  run w = Ok tt s ->
  exists qd cfg,
    instruments s !! "quantum_device" = Some qd
    /\ iparams qd !! "hardware_config" = Some (VDict cfg)
    /\ 0 < length (flat_map (fun c => cluster_portclocks (snd c)) (clusters cfg))
    /\ Forall (entry_of_registered_element
                 (registered_elements s (Ref "quantum_device")))
              (flat_map (fun c => cluster_portclocks (snd c)) (clusters cfg)).
Proof.
  intros H. completed H.
  all: cbn [instruments].
  all: do 2 eexists.
  all: split; [vm_compute; reflexivity |].
  all: split; [vm_compute; reflexivity |].
  all: split; [cbn; lia |].
  all: repeat constructor.
  all: do 2 eexists; split; [reflexivity |].
  all: split; vm_compute; left; reflexivity.
Qed.

Lemma configured_ports_belong_to_registered_elements_witness :
  run lab = Ok tt lab_session
  /\ exists qd cfg,
    instruments lab_session !! "quantum_device" = Some qd
    /\ iparams qd !! "hardware_config" = Some (VDict cfg)
    /\ 0 < length (flat_map (fun c => cluster_portclocks (snd c)) (clusters cfg))
    /\ Forall (entry_of_registered_element
                 (registered_elements lab_session (Ref "quantum_device")))
              (flat_map (fun c => cluster_portclocks (snd c)) (clusters cfg)).
Proof.
  split; [vm_compute; reflexivity |].
  apply (configured_ports_belong_to_registered_elements lab lab_session).
  vm_compute; reflexivity.
Defined.

(** ** The reported status *)

Ltac in_world H :=
  cbv beta iota delta [with_system_state home clock existing_dirs can_mkdir
                       reachable system_state] in H.

(** X12: the system state the cluster reports is printed and never
    checked: whatever it is, the run ends with the same exception, or
    completes with the same variables, instruments and data directory
    and the same calls, and prints that the cluster is correctly
    connected. *)
Theorem reported_status_is_not_checked (w : world) (f : string -> string) :
  match run w, run (with_system_state f w) with
  | Ok _ s1, Ok _ s2 =>
      globals s1 = globals s2
      /\ instruments s1 = instruments s2
      /\ dirs s1 = dirs s2
      /\ datadir s1 = datadir s2
      /\ silent (trace s1) = silent (trace s2)
      /\ In (EPrint [Text ("CMM system status is " +:+ newline);
                     Shown (f "clusterA")]) (trace s2)
      /\ In (EPrint [Text ("correctly connected to qblox-cluster-MM."
                           +:+ newline)]) (trace s2)
  | Raise e1, Raise e2 => e1 = e2
  | _, _ => False
  end.
Proof.
  destruct w as [h c d mk r st].
  remember (run {| home := h; clock := c; existing_dirs := d; can_mkdir := mk;
                   reachable := r; system_state := st |}) as r1 eqn:H1.
  remember (run (with_system_state f _)) as r2 eqn:H2.
  symmetry in H1, H2.
  destruct r1 as [e1 | [] s1], r2 as [e2 | [] s2].
  all: in_world H2; unfold_script H1; unfold_script H2; in_world H1; in_world H2.
  all: split_outcomes H1; cbv beta iota in H2; split_outcomes H2.
  all: try discriminate H1; try discriminate H2.
  all: try (apply Raise_inv in H1, H2; subst; reflexivity).
  all: apply Ok_inv in H1; destruct H1 as [_ <-].
  all: apply Ok_inv in H2; destruct H2 as [_ <-].
  all: cbn [globals dirs datadir instruments ticks trace].
  all: do 4 (split; [reflexivity |]).
  all: split; [vm_compute; reflexivity |].
  all: cbn [app In].
  all: split; repeat (first [left; reflexivity | right]).
Qed.

(** ** The loop, for any list of elements *)



Lemma loop_body_frame (dev q : instr_ref) (s s' : state) :
  (assign "qubit" (VInstr q) ;; add_element dev q) s = Ok tt s' ->
  dirs s' = dirs s /\ datadir s' = datadir s /\ ticks s' = ticks s
  /\ (forall n, n <> instr_name dev ->
                instruments s' !! n = instruments s !! n)
  /\ option_map icls (instruments s' !! instr_name dev)
     = option_map icls (instruments s !! instr_name dev)
  /\ (forall x, x <> "qubit" -> globals s' !! x = globals s !! x).
Proof.
  intros H. unfold mbind, M_bind, bind, assign, add_element in H.
  cbn [set_trace set_globals set_instruments instruments trace globals
       dirs datadir ticks] in H.
  destruct (already_added _ _ _ _); [discriminate H |].
  destruct (isinstance _ _ _); [| discriminate H].
  apply Ok_inv in H as [_ <-]. cbn.
  repeat split.
  - intros n Hn. now rewrite lookup_alter_ne.
  - rewrite lookup_alter_eq. now destruct (instruments s !! instr_name dev).
  - intros x Hx. now rewrite lookup_insert_ne.
Qed.

(** X14: the loop over the device elements touches nothing but the
    device registry and the loop variable: the filesystem, the data
    directory and the clock are as before, every other instrument is
    unchanged, the registry keeps its class, and every variable other
    than [qubit] keeps its value. *)
Theorem register_elements_frame
    (dev : instr_ref) (qs : list instr_ref) (s s' : state) :
  register_elements dev qs s = Ok tt s' ->
  dirs s' = dirs s /\ datadir s' = datadir s /\ ticks s' = ticks s
  /\ (forall n, n <> instr_name dev ->
                instruments s' !! n = instruments s !! n)
  /\ option_map icls (instruments s' !! instr_name dev)
     = option_map icls (instruments s !! instr_name dev)
  /\ (forall x, x <> "qubit" -> globals s' !! x = globals s !! x).
Proof.
  revert s. induction qs as [| q qs IH]; intros s H.
  - apply Ok_inv in H as [_ <-]. repeat split.
  - unfold register_elements in H. cbn [for_each] in H.
    change (bind (assign "qubit" (VInstr q);; add_element dev q)
              (fun _ => register_elements dev qs) s = Ok tt s') in H.
    unfold bind in H.
    destruct ((assign "qubit" (VInstr q);; add_element dev q) s)
      as [e | [] s1] eqn:Hbody; [discriminate H |].
    apply loop_body_frame in Hbody as (Hd & Hdd & Ht & Hi & Hc & Hg).
    apply IH in H as (Hd' & Hdd' & Ht' & Hi' & Hc' & Hg').
    rewrite Hd', Hdd', Ht', Hc', Hd, Hdd, Ht, Hc.
    repeat split.
    + intros n Hn. now rewrite Hi', Hi.
    + intros x Hx. now rewrite Hg', Hg.
Qed.

Lemma register_elements_frame_witness :
  register_elements (Ref "quantum_device") [Ref "q00"; Ref "q01"] lab_device_ready
  = Ok tt lab_two_registered
  /\ dirs lab_two_registered = dirs lab_device_ready
  /\ datadir lab_two_registered = datadir lab_device_ready
  /\ ticks lab_two_registered = ticks lab_device_ready
  /\ (forall n, n <> instr_name (Ref "quantum_device") ->
                instruments lab_two_registered !! n
                = instruments lab_device_ready !! n)
  /\ option_map icls
       (instruments lab_two_registered !! instr_name (Ref "quantum_device"))
     = option_map icls
         (instruments lab_device_ready !! instr_name (Ref "quantum_device"))
  /\ (forall x, x <> "qubit" ->
                globals lab_two_registered !! x = globals lab_device_ready !! x).
Proof.
  split; [vm_compute; reflexivity |].
  apply (register_elements_frame (Ref "quantum_device") [Ref "q00"; Ref "q01"]
           lab_device_ready lab_two_registered).
  vm_compute; reflexivity.
Defined.

(** ** Running the script again *)

(** X15: the script closes no instrument and does not check for
    existing ones: run a second time in the session a completed run
    left behind, it aborts at the [Cluster] call with the [KeyError] of
    the name clusterA, which is taken. *)
Theorem second_run_fails_on_the_cluster_name (w : world) (s : state) :
  run w = Ok tt s ->
  script w s = Raise (KeyError "clusterA").
Proof.
  intros H. completed H.
  all: match goal with
       | |- ?r = _ => destruct r as [e | [] s2] eqn:H2
       end.
  all: unfold_script H2; split_outcomes H2; try discriminate H2.
  all: try impossible_dir.
  all: try congruence.
Qed.

Lemma second_run_fails_on_the_cluster_name_witness :
  run lab = Ok tt lab_session
  /\ script lab lab_session = Raise (KeyError "clusterA").
Proof.
  split; [vm_compute; reflexivity |].
  apply (second_run_fails_on_the_cluster_name lab lab_session).
  vm_compute; reflexivity.
Defined.
